(** * rottentomatoes: a shallow embedding of [rottentomatoes.py]

    The module is a Python 2 client of the Rotten Tomatoes web API: a class
    [RT] whose methods assemble a request URL, fetch it, undo an optional
    gzip framing and decode the body as JSON.

    Python [str] values (URLs and response bodies alike) are byte strings and
    are modelled by [string]; dictionaries with string keys by [gmap string];
    exceptions by an error monad. *)

From Stdlib Require Import ZArith String Ascii List Bool.
From stdpp Require Import base option gmap strings list fin_maps pretty.

Set Warnings "-register-all".
Open Scope string_scope.
Open Scope Z_scope.

(** ** Exceptions and the error monad *)

Inductive exn : Type :=
  | AssertionError   (* a failed [assert] *)
  | URLError         (* whatever [urlopen(url).read()] raises *)
  | ValueError       (* [json.loads] on text that is not JSON *)
  | KeyError         (* [d[k]] on a dict without [k] *)
  | IndexError       (* [s[i]] on a sequence too short *)
  | TypeError.       (* subscripting a value that has no such subscript *)

Inductive result (A : Type) : Type :=
  | Ok (a : A)
  | Raise (e : exn).
Arguments Ok {A} a.
Arguments Raise {A} e.

Global Instance result_ret : MRet result := fun _ a => Ok a.
Global Instance result_bind : MBind result := fun _ _ f m =>
  match m with
  | Ok a => f a
  | Raise e => Raise e
  end.

(** ** Python values *)

(** Values a caller passes to the client.  A float is identified by the text
    [str] gives it, the only thing the client ever does with one; [SInt] is a
    machine [int] and [SLong] a [long], which [isinstance(_, int)] tells
    apart. *)
Inductive scalar : Type :=
  | SNone
  | SBool (b : bool)
  | SInt (n : Z)
  | SLong (n : Z)
  | SFloat (repr : string)
  | SStr (s : string).

(** Values [json.loads] produces.  The text of a decoded string is unicode;
    [PStr] holds its UTF-8 encoding. *)
Inductive pyval : Type :=
  | PNone
  | PBool (b : bool)
  | PInt (n : Z)
  | PFloat (repr : string)
  | PStr (s : string)
  | PList (l : list pyval)
  | PDict (d : gmap string pyval).

(** [str(x)], which is also what ['%s' % x] inserts. *)
Definition str (x : scalar) : string :=
  match x with
  | SNone => "None"
  | SBool true => "True"
  | SBool false => "False"
  | SInt n => pretty n
  | SLong n => pretty n
  | SFloat repr => repr
  | SStr s => s
  end.

(** Truth value of [x] in [if x:] and [not x]. *)
Definition truthy (x : scalar) : bool :=
  match x with
  | SNone => false
  | SBool b => b
  | SInt n => negb (n =? 0)
  | SLong n => negb (n =? 0)
  | SFloat repr => negb (String.eqb repr "0.0" || String.eqb repr "-0.0")
  | SStr s => negb (String.eqb s "")
  end.

(** [isinstance(x, float)]. *)
Definition is_float (x : scalar) : bool :=
  match x with SFloat _ => true | _ => false end.

(** [isinstance(x, int)]; [bool] is a subclass of [int], [long] is not. *)
Definition is_int (x : scalar) : bool :=
  match x with SInt _ | SBool _ => true | _ => false end.

(** [x != None]. *)
Definition is_not_None (x : scalar) : bool :=
  match x with SNone => false | _ => true end.

(** [x == s] for a string literal [s]. *)
Definition eq_str (x : scalar) (s : string) : bool :=
  match x with SStr t => String.eqb t s | _ => false end.

(** Subscripts: [x[k]] with a string or an integer [k]. *)
Inductive subscript : Type :=
  | KStr (k : string)
  | KInt (i : Z).

(** Position of index [i] in a sequence of length [len] (negative indices
    count from the end), or [None] when it is out of range. *)
Definition seq_index (len : nat) (i : Z) : option nat :=
  let j := if i <? 0 then i + Z.of_nat len else i in
  if (0 <=? j) && (j <? Z.of_nat len) then Some (Z.to_nat j) else None.

(** The characters of a text given by its UTF-8 encoding: every byte that
    is not a continuation byte ([10xxxxxx]) starts a character and takes the
    continuation bytes after it along.  [utf8_split] returns the
    continuation bytes at the front of its input apart. *)
Definition is_continuation (c : ascii) : bool :=
  let n := Z.of_N (N_of_ascii c) in (128 <=? n) && (n <? 192).

Fixpoint utf8_split (s : string) : string * list string :=
  match s with
  | "" => ("", [])
  | String c rest =>
      let '(pending, chars) := utf8_split rest in
      if is_continuation c then (String c pending, chars)
      else ("", String c pending :: chars)
  end.

Definition utf8_chars (s : string) : list string :=
  let '(pending, chars) := utf8_split s in
  match pending with
  | "" => chars
  | _ => pending :: chars
  end.

(** [x[k]].  Keys of a decoded JSON object are strings, so an integer key is
    never found in one; a decoded string is indexed by character. *)
Definition getitem (x : pyval) (k : subscript) : result pyval :=
  match x, k with
  | PDict d, KStr s =>
      match d !! s with
      | Some v => Ok v
      | None => Raise KeyError
      end
  | PDict _, KInt _ => Raise KeyError
  | PList l, KInt i =>
      match seq_index (length l) i with
      | Some n =>
          match l !! n with
          | Some v => Ok v
          | None => Raise IndexError
          end
      | None => Raise IndexError
      end
  | PStr s, KInt i =>
      match seq_index (length (utf8_chars s)) i with
      | Some n =>
          match utf8_chars s !! n with
          | Some c => Ok (PStr c)
          | None => Raise IndexError
          end
      | None => Raise IndexError
      end
  | _, _ => Raise TypeError
  end.

(** ** The parts of [urllib] the client calls *)

(** The characters [urllib.quote] never escapes: letters, digits and [_.-]. *)
Definition always_safe (c : ascii) : bool :=
  let n := Z.of_N (N_of_ascii c) in
  ((65 <=? n) && (n <=? 90)) || ((97 <=? n) && (n <=? 122))
  || ((48 <=? n) && (n <=? 57))
  || Ascii.eqb c "_" || Ascii.eqb c "." || Ascii.eqb c "-".

Definition hex_digit (n : N) : ascii :=
  match String.get (N.to_nat n) "0123456789ABCDEF" with
  | Some c => c
  | None => "0"%char
  end.

(** What [quote_plus] makes of one character: itself when it is safe, [+]
    for a space, [%XX] otherwise. *)
Definition quote_char (c : ascii) : string :=
  if always_safe c then String c ""
  else if Ascii.eqb c " " then "+"
  else let n := N_of_ascii c in
       String "%" (String (hex_digit (n / 16)) (String (hex_digit (n mod 16)) "")).

(** [urllib.quote_plus(s)]. *)
Fixpoint quote_plus (s : string) : string :=
  match s with
  | "" => ""
  | String c rest => quote_char c +:+ quote_plus rest
  end.

(** One [key=value] component of a query string. *)
Definition encode_pair (kv : string * scalar) : string :=
  quote_plus kv.1 +:+ "=" +:+ quote_plus (str kv.2).

(** [urllib.urlencode(query)] for a dict [query]: the encoded items joined
    by [&].  Python 2 walks the dict in hash order; here the items come in
    the order [map_to_list] gives them. *)
Definition urlencode (query : gmap string scalar) : string :=
  String.concat "&" (encode_pair <$> map_to_list query).

(** [d.update(other)]: the entries of [other] win. *)
Definition dict_update (d other : gmap string scalar) : gmap string scalar :=
  other ∪ d.

(** ** The module *)

(** What the module takes from its surroundings: the optional module
    [rottentomatoes_api_key], the process environment, and the three library
    calls of [_load_json_from_url]. *)
Class Platform : Type := {
  (** [API_KEY] of [rottentomatoes_api_key.py], when that import succeeds. *)
  rottentomatoes_api_key : option scalar;
  (** [os.environ.get('RT_KEY')]. *)
  environ_RT_KEY : option string;
  (** [urlopen(url).read()]. *)
  urlopen_read : string → result string;
  (** [zlib.decompress(data, 16 + zlib.MAX_WBITS)]; [None] is [zlib.error]. *)
  zlib_decompress : string → option string;
  (** [json.loads(text)]; [None] is the [ValueError] it raises. *)
  json_loads : string → option pyval
}.

(** An instance of the class [RT]. *)
Record RT : Type := mkRT {
  api_key : scalar;
  version : scalar;
  BASE_URL : string;
  lists_url : string;
  movie_url : string
}.

(** Default values of keyword arguments. *)
Definition default_api_key : scalar := SStr "".
Definition default_version : scalar := SFloat "1.0".
Definition default_datatype : string := "movies".

Section Client.
Context {P : Platform}.

(** The module global [API_KEY]: the bundled value when the import succeeds,
    the environment variable otherwise. *)
Definition API_KEY : scalar :=
  match rottentomatoes_api_key with
  | Some key => key
  | None =>
      match environ_RT_KEY with
      | Some s => SStr s
      | None => SNone
      end
  end.

Definition __init__ (api_key version : scalar) : result RT :=
  let self_api_key := if negb (truthy api_key) then API_KEY else api_key in
  if negb (is_not_None self_api_key) then Raise AssertionError
  else
    let version := if is_float version then SStr (str version) else version in
    let BASE_URL :=
      "http://api.rottentomatoes.com/api/public/v" +:+ str version +:+ "/" in
    Ok {| api_key := self_api_key;
          version := version;
          BASE_URL := BASE_URL;
          lists_url := BASE_URL +:+ "lists";
          movie_url := BASE_URL +:+ "movies" |}.

Definition _load_json_from_url (self : RT) (url : string) : result pyval :=
  response ← urlopen_read url;
  let response :=
    match zlib_decompress response with
    | Some plain => plain
    | None => response
    end in
  match json_loads response with
  | Some data => Ok data
  | None => Raise ValueError
  end.

(** The dict [search] encodes, and the URL it requests. *)
Definition search_params (self : RT) (query : scalar)
    (kwargs : gmap string scalar) : gmap string scalar :=
  dict_update kwargs (<["apikey" := api_key self]> {["q" := query]}).

Definition search_url (self : RT) (query : scalar)
    (kwargs : gmap string scalar) : string :=
  movie_url self +:+ "?" +:+ urlencode (search_params self query kwargs).

Definition search (self : RT) (query : scalar) (datatype : string)
    (kwargs : gmap string scalar) : result pyval :=
  data ← _load_json_from_url self (search_url self query kwargs);
  getitem data (KStr datatype).

(** The dict [lists] encodes, the path it appends, and the URL it requests. *)
Definition lists_params (self : RT) (kwargs : gmap string scalar)
  : gmap string scalar :=
  dict_update kwargs {["apikey" := api_key self]}.

Definition lists_path (directory sub : scalar) : string :=
  if truthy directory then
    if truthy sub then "/" +:+ str directory +:+ "/" +:+ str sub
    else "/" +:+ str directory
  else "".

Definition lists_request_url (self : RT) (directory sub : scalar)
    (kwargs : gmap string scalar) : string :=
  lists_url self +:+ lists_path directory sub +:+ ".json?"
    +:+ urlencode (lists_params self kwargs).

Definition lists (self : RT) (directory sub : scalar)
    (kwargs : gmap string scalar) : result pyval :=
  data ← _load_json_from_url self (lists_request_url self directory sub kwargs);
  Ok data.

(** The dict [info] encodes and the URL it requests. *)
Definition info_params (self : RT) : gmap string scalar :=
  {["apikey" := api_key self]}.

Definition info_request_url (self : RT) (id_num specific_info : scalar)
  : string :=
  let id_num := if is_int id_num then SStr (str id_num) else id_num in
  movie_url self +:+ ("/" +:+ str id_num)
    +:+ (if truthy specific_info then "/" +:+ str specific_info else "")
    +:+ ".json?" +:+ urlencode (info_params self).

Definition info (self : RT) (id_num specific_info : scalar) : result pyval :=
  data ← _load_json_from_url self (info_request_url self id_num specific_info);
  Ok data.

(** The call [self.lists(directory, sub, **kwargs)] made by [new], [movies]
    and [dvds].  The positional arguments fill [self], [directory] and [sub];
    an option of one of these names is a second value for that parameter,
    which Python refuses with a [TypeError] before [lists] runs. *)
Definition has_option (kwargs : gmap string scalar) (name : string) : bool :=
  match kwargs !! name with
  | Some _ => true
  | None => false
  end.

Definition lists_accepts (kwargs : gmap string scalar) : bool :=
  negb (has_option kwargs "self" || has_option kwargs "directory"
        || has_option kwargs "sub").

Definition call_lists (self : RT) (directory sub : scalar)
    (kwargs : gmap string scalar) : result pyval :=
  if lists_accepts kwargs then lists self directory sub kwargs
  else Raise TypeError.

Definition new (self : RT) (kind : scalar) (kwargs : gmap string scalar)
  : result pyval :=
  if eq_str kind "movies" then
    data ← call_lists self (SStr "movies") (SStr "opening") kwargs;
    getitem data (KStr "movies")
  else if eq_str kind "dvds" then
    data ← call_lists self (SStr "dvds") (SStr "new_releases") kwargs;
    getitem data (KStr "movies")
  else Ok PNone.

Definition movies (self : RT) (sub : scalar) (kwargs : gmap string scalar)
  : result pyval :=
  data ← call_lists self (SStr "movies") sub kwargs;
  getitem data (KStr "movies").

Definition dvds (self : RT) (sub : scalar) (kwargs : gmap string scalar)
  : result pyval :=
  data ← call_lists self (SStr "dvds") sub kwargs;
  getitem data (KStr "movies").

Definition feeling_lucky (self : RT) (search_term : scalar) : result pyval :=
  found ← search self search_term default_datatype {["page_limit" := SInt 1]};
  getitem found (KInt 0).

End Client.

(** ** A concrete platform

    Executable stand-ins for the library calls, used to run the client on
    actual response bodies: a gzip codec for members made of one stored
    (uncompressed) deflate block, and a decoder for the part of JSON without
    fractions, exponents and [\u] escapes. *)

Module Gzip.

(** The two identification bytes every gzip member starts with. *)
Definition ID1 : ascii := "031"%char.
Definition ID2 : ascii := "139"%char.

Definition has_magic (data : string) : bool :=
  match data with
  | String c1 (String c2 _) => Ascii.eqb c1 ID1 && Ascii.eqb c2 ID2
  | _ => false
  end.

Definition byte_val (c : ascii) : Z := Z.of_N (N_of_ascii c).
Definition byte_of (n : Z) : ascii := ascii_of_N (Z.to_N (n mod 256)).

(** CRC-32 of the gzip trailer (reflected polynomial [0xEDB88320]). *)
Fixpoint crc_shift (n : nat) (c : Z) : Z :=
  match n with
  | O => c
  | S n =>
      crc_shift n (if Z.testbit c 0
                   then Z.lxor (Z.shiftr c 1) 3988292384
                   else Z.shiftr c 1)
  end.

Fixpoint crc_update (c : Z) (data : string) : Z :=
  match data with
  | "" => c
  | String b rest => crc_update (crc_shift 8 (Z.lxor c (byte_val b))) rest
  end.

Definition crc32 (data : string) : Z :=
  Z.lxor (crc_update 4294967295 data) 4294967295.

(** [n] as [k] little-endian bytes. *)
Fixpoint le_bytes (k : nat) (n : Z) : string :=
  match k with
  | O => ""
  | S k => String (byte_of n) (le_bytes k (n / 256))
  end.

Fixpoint le_value (bytes : string) : Z :=
  match bytes with
  | "" => 0
  | String b rest => byte_val b + 256 * le_value rest
  end.

Definition take (n : nat) (s : string) : string := String.substring 0 n s.
Definition drop (n : nat) (s : string) : string :=
  String.substring n (String.length s - n) s.

(** A gzip member holding [data] in one stored block (for [data] shorter
    than 65536 bytes): header, block header, the bytes, CRC-32 and length. *)
Definition compress (data : string) : string :=
  let len := Z.of_nat (String.length data) in
  String ID1 (String ID2 (String "008" (String "000" (le_bytes 4 0
    +:+ String "000" (String "255" (String "001" (le_bytes 2 len
    +:+ le_bytes 2 (65535 - len) +:+ data +:+ le_bytes 4 (crc32 data)
    +:+ le_bytes 4 len))))))).

(** The inverse: [None] unless [member] is exactly such a member with a
    matching checksum and length. *)
Definition decompress (member : string) : option string :=
  if negb (has_magic member) then None
  else if negb (String.eqb (take 2 (drop 2 member)) (String "008" (String "000" "")))
  then None
  else
    let block := drop 10 member in
    if negb (String.eqb (take 1 block) (String "001" "")) then None
    else
      let len := le_value (take 2 (drop 1 block)) in
      let nlen := le_value (take 2 (drop 3 block)) in
      let data := take (Z.to_nat len) (drop 5 block) in
      let trailer := drop (5 + Z.to_nat len) block in
      if negb (len + nlen =? 65535) then None
      else if negb (Nat.eqb (String.length data) (Z.to_nat len)) then None
      else if negb (Nat.eqb (String.length trailer) 8) then None
      else if negb (le_value (take 4 trailer) =? crc32 data) then None
      else if negb (le_value (drop 4 trailer) =? len) then None
      else Some data.

End Gzip.

Module Json.

Definition dquote : ascii := "034"%char.
Definition backslash : ascii := "092"%char.

Definition is_ws (c : ascii) : bool :=
  Ascii.eqb c " " || Ascii.eqb c "009" || Ascii.eqb c "010" || Ascii.eqb c "013".

Definition is_digit (c : ascii) : bool :=
  let n := N_of_ascii c in (48 <=? n)%N && (n <=? 57)%N.

Fixpoint skip_ws (s : string) : string :=
  match s with
  | String c rest => if is_ws c then skip_ws rest else s
  | "" => ""
  end.

(** [Some rest] when [s] is [prefix] followed by [rest]. *)
Fixpoint strip_prefix (prefix s : string) : option string :=
  match prefix, s with
  | "", _ => Some s
  | String a prefix, String b s =>
      if Ascii.eqb a b then strip_prefix prefix s else None
  | _, "" => None
  end.

(** The digits at the front of [s], as a number, and what follows them. *)
Fixpoint digits (acc : Z) (s : string) : Z * string :=
  match s with
  | String c rest =>
      if is_digit c then digits (10 * acc + (Z.of_N (N_of_ascii c) - 48)) rest
      else (acc, s)
  | "" => (acc, "")
  end.

(** An integer literal; a fraction or an exponent after it is refused. *)
Definition number (negative : bool) (s : string) : option (pyval * string) :=
  match s with
  | String c _ =>
      if is_digit c then
        let '(n, rest) := digits 0 s in
        match rest with
        | String d _ =>
            if Ascii.eqb d "." || Ascii.eqb d "e" || Ascii.eqb d "E" then None
            else Some (PInt (if negative then - n else n), rest)
        | "" => Some (PInt (if negative then - n else n), "")
        end
      else None
  | "" => None
  end.

(** The character an escape [\c] stands for. *)
Definition unescape (c : ascii) : option ascii :=
  if Ascii.eqb c dquote then Some dquote
  else if Ascii.eqb c backslash then Some backslash
  else if Ascii.eqb c "/" then Some "/"%char
  else if Ascii.eqb c "n" then Some "010"%char
  else if Ascii.eqb c "t" then Some "009"%char
  else if Ascii.eqb c "r" then Some "013"%char
  else if Ascii.eqb c "b" then Some "008"%char
  else if Ascii.eqb c "f" then Some "012"%char
  else None.

(** The body of a string literal, after its opening quote. *)
Fixpoint string_body (s : string) : option (string * string) :=
  match s with
  | "" => None
  | String c rest =>
      if Ascii.eqb c dquote then Some ("", rest)
      else if Ascii.eqb c backslash then
        match rest with
        | String e rest' =>
            match unescape e, string_body rest' with
            | Some c', Some (body, after) => Some (String c' body, after)
            | _, _ => None
            end
        | "" => None
        end
      else
        match string_body rest with
        | Some (body, after) => Some (String c body, after)
        | None => None
        end
  end.

Inductive state : Type :=
  | Value                                   (* a value is expected *)
  | Elements (seen : list pyval)            (* inside [...], after [seen] *)
  | Members (seen : gmap string pyval).     (* inside {...}, after [seen] *)

(** The value at the front of [s] (or the rest of the array or object being
    read) and the text after it.  A later member of an object replaces an
    earlier one with the same name. *)
Fixpoint parse (fuel : nat) (st : state) (s : string) : option (pyval * string) :=
  match fuel with
  | O => None
  | S fuel =>
      match st, skip_ws s with
      | Value, String c rest =>
          if Ascii.eqb c "[" then
            match skip_ws rest with
            | String "]" after => Some (PList [], after)
            | _ => parse fuel (Elements []) rest
            end
          else if Ascii.eqb c "{" then
            match skip_ws rest with
            | String "}" after => Some (PDict ∅, after)
            | _ => parse fuel (Members ∅) rest
            end
          else if Ascii.eqb c dquote then
            match string_body rest with
            | Some (body, after) => Some (PStr body, after)
            | None => None
            end
          else if Ascii.eqb c "-" then number true rest
          else if is_digit c then number false (String c rest)
          else
            match strip_prefix "null" (String c rest),
                  strip_prefix "true" (String c rest),
                  strip_prefix "false" (String c rest) with
            | Some after, _, _ => Some (PNone, after)
            | _, Some after, _ => Some (PBool true, after)
            | _, _, Some after => Some (PBool false, after)
            | _, _, _ => None
            end
      | Value, "" => None
      | Elements seen, text =>
          match parse fuel Value text with
          | Some (v, after) =>
              match skip_ws after with
              | String "," more => parse fuel (Elements (seen ++ [v])) more
              | String "]" more => Some (PList (seen ++ [v]), more)
              | _ => None
              end
          | None => None
          end
      | Members seen, String c rest =>
          if Ascii.eqb c dquote then
            match string_body rest with
            | Some (name, after) =>
                match skip_ws after with
                | String ":" after' =>
                    match parse fuel Value after' with
                    | Some (v, after'') =>
                        match skip_ws after'' with
                        | String "," more =>
                            parse fuel (Members (<[name := v]> seen)) more
                        | String "}" more =>
                            Some (PDict (<[name := v]> seen), more)
                        | _ => None
                        end
                    | None => None
                    end
                | _ => None
                end
            | None => None
            end
          else None
      | Members _, "" => None
      end
  end.

(** The whole of [text] as one JSON value. *)
Definition loads (text : string) : option pyval :=
  match parse (2 * String.length text + 2) Value text with
  | Some (v, after) =>
      match skip_ws after with
      | "" => Some v
      | _ => None
      end
  | None => None
  end.

(** JSON text is full of double quotes; [text] writes it with single ones. *)
Fixpoint text (s : string) : string :=
  match s with
  | "" => ""
  | String c rest => String (if Ascii.eqb c "'" then dquote else c) (text rest)
  end.

End Json.

(** A platform with the given key sources, whose network answers as
    [server] says and whose library calls are the codecs above. *)
Definition local_platform (bundled : option scalar) (RT_KEY : option string)
    (server : string → result string) : Platform :=
  {| rottentomatoes_api_key := bundled;
     environ_RT_KEY := RT_KEY;
     urlopen_read := server;
     zlib_decompress := Gzip.decompress;
     json_loads := Json.loads |}.

(** A server that answers every request with [body]. *)
Definition always (body : string) : string → result string :=
  fun _ => Ok body.

(** A server with one page per encoding of [body]. *)
Definition two_encodings (body : string) : string → result string :=
  fun url =>
    if String.eqb url "plain" then Ok body
    else if String.eqb url "gzip" then Ok (Gzip.compress body)
    else Raise URLError.

(** The client [RT('secret')]. *)
Definition demo_client : RT :=
  {| api_key := SStr "secret";
     version := SStr "1.0";
     BASE_URL := "http://api.rottentomatoes.com/api/public/v1.0/";
     lists_url := "http://api.rottentomatoes.com/api/public/v1.0/lists";
     movie_url := "http://api.rottentomatoes.com/api/public/v1.0/movies" |}.

(** A search response with two movies. *)
Definition search_body : string :=
  Json.text "{'total': 5, 'movies': [{'id': '9'}, {'id': '13153'}]}".

Definition the_movies : list pyval :=
  [PDict {["id" := PStr "9"]}; PDict {["id" := PStr "13153"]}].

Definition search_payload : pyval :=
  PDict (<["total" := PInt 5]> {["movies" := PList the_movies]}).

(** ** Response framing *)

(** What the two library calls are known to do with the first bytes of their
    input: [zlib.decompress] with the gzip window-bits convention accepts
    only data that starts with the gzip identification bytes, and no JSON
    text starts with them. *)
Definition gzip_needs_magic {P : Platform} : Prop :=
  ∀ data plain, zlib_decompress data = Some plain → Gzip.has_magic data = true.

Definition json_never_magic {P : Platform} : Prop :=
  ∀ text data, json_loads text = Some data → Gzip.has_magic text = false.

(** ** The claims as the specification words them, where the code differs *)

(** Some source yields a non-empty key: the constructor argument, the
    bundled secret or the environment variable. *)
Definition nonempty_key_available {P : Platform} (api_key : scalar) : Prop :=
  truthy api_key = true
  ∨ (∃ key, rottentomatoes_api_key = Some key ∧ truthy key = true)
  ∨ (∃ s, environ_RT_KEY = Some s ∧ s ≠ "").

(** The query string [qs] has [k=v], encoded, as one of its [&]-separated
    components. *)
Definition query_has (qs k : string) (v : scalar) : Prop :=
  ∃ before after : list string,
    qs = String.concat "&" (before ++ encode_pair (k, v) :: after).

(** The key [k] is present in the decoded payload. *)
Definition has_key (payload : pyval) (k : string) : bool :=
  match payload with
  | PDict d => bool_decide (is_Some (d !! k))
  | _ => false
  end.

(** ** Counting separators *)

(** How often the character [c] occurs in [s]. *)
Fixpoint count_char (c : ascii) (s : string) : nat :=
  match s with
  | "" => 0%nat
  | String x rest => ((if Ascii.eqb x c then 1 else 0) + count_char c rest)%nat
  end.

(** A server that cannot be reached. *)
Definition unreachable : string → result string :=
  fun _ => Raise URLError.

(** An answer of the service that reports an error instead of movies. *)
Definition error_body : string := Json.text "{'error': 'Account Inactive'}".

(** * Properties *)

(** ** Strings *)

Lemma append_assoc (a b c : string) : (a +:+ b) +:+ c = a +:+ b +:+ c.
Proof. induction a as [|x a IH]; [reflexivity | exact (f_equal (String x) IH)]. Qed.

Lemma append_nil_r (a : string) : a +:+ "" = a.
Proof. induction a as [|x a IH]; [reflexivity | exact (f_equal (String x) IH)]. Qed.

(** ** The codecs of the concrete platform *)

Lemma gzip_decompress_magic (member data : string) :
  Gzip.decompress member = Some data → Gzip.has_magic member = true.
Proof.
  unfold Gzip.decompress.
  destruct (Gzip.has_magic member); [reflexivity | discriminate].
Qed.

Lemma json_parse_magic (fuel : nat) (rest : string) :
  Json.parse fuel Json.Value (String Gzip.ID1 rest) = None.
Proof. destruct fuel; reflexivity. Qed.

Lemma json_loads_no_magic (text : string) (data : pyval) :
  Json.loads text = Some data → Gzip.has_magic text = false.
Proof.
  destruct text as [|c1 [|c2 rest]]; try reflexivity.
  intros Hloads. simpl.
  destruct (Ascii.eqb_spec c1 Gzip.ID1) as [->|]; [|reflexivity].
  unfold Json.loads in Hloads.
  rewrite json_parse_magic in Hloads. discriminate.
Qed.

Lemma local_gzip_needs_magic bundled RT_KEY server :
  gzip_needs_magic (P := local_platform bundled RT_KEY server).
Proof. intros member data. apply gzip_decompress_magic. Qed.

Lemma local_json_never_magic bundled RT_KEY server :
  json_never_magic (P := local_platform bundled RT_KEY server).
Proof. intros text data. apply json_loads_no_magic. Qed.

(** ** Fetch and decode *)

Section FetchAndDecode.
Context {P : Platform}.

Lemma load_plain (self : RT) (url body : string) :
  urlopen_read url = Ok body →
  zlib_decompress body = None →
  _load_json_from_url self url =
    match json_loads body with
    | Some data => Ok data
    | None => Raise ValueError
    end.
Proof.
  intros Hread Hplain. unfold _load_json_from_url.
  rewrite Hread. simpl. rewrite Hplain. reflexivity.
Qed.

Lemma load_gzipped (self : RT) (url body plain : string) :
  urlopen_read url = Ok body →
  zlib_decompress body = Some plain →
  _load_json_from_url self url =
    match json_loads plain with
    | Some data => Ok data
    | None => Raise ValueError
    end.
Proof.
  intros Hread Hgz. unfold _load_json_from_url.
  rewrite Hread. simpl. rewrite Hgz. reflexivity.
Qed.

(** C1. Compression transparency of [_load_json_from_url]: for JSON text [b]
    decoding to [data], a response body equal to [b] yields [data], and so
    does any body that gunzips to [b]; and whenever decompression fails the
    body itself is decoded, the failure raising nothing. *)
Theorem load_json_compression_transparent
    (self : RT) (b : string) (data : pyval) :
  gzip_needs_magic →
  json_never_magic →
  json_loads b = Some data →
  (∀ url, urlopen_read url = Ok b → _load_json_from_url self url = Ok data)
  ∧ (∀ url gz, zlib_decompress gz = Some b → urlopen_read url = Ok gz →
       _load_json_from_url self url = Ok data)
  ∧ (∀ url body, urlopen_read url = Ok body → zlib_decompress body = None →
       _load_json_from_url self url =
         match json_loads body with
         | Some decoded => Ok decoded
         | None => Raise ValueError
         end).
Proof.
  intros Hgz Hjson Hb. split; [|split].
  - intros url Hread.
    assert (zlib_decompress b = None) as Hplain.
    { destruct (zlib_decompress b) as [plain|] eqn:Hdec; [|reflexivity].
      apply Hgz in Hdec. apply Hjson in Hb. congruence. }
    rewrite (load_plain self url b Hread Hplain), Hb. reflexivity.
  - intros url gz Hdec Hread.
    rewrite (load_gzipped self url gz b Hread Hdec), Hb. reflexivity.
  - intros url body. apply load_plain.
Qed.

End FetchAndDecode.

(** C1 on the concrete platform: the same JSON text served plain and
    gzip-framed. *)
Lemma load_json_compression_transparent_witness :
  let P := local_platform None None
             (two_encodings (Json.text "{'total': 5, 'movies': []}")) in
  let data := PDict (<["total" := PInt 5]> {["movies" := PList []]}) in
  gzip_needs_magic (P := P) ∧ json_never_magic (P := P)
  ∧ json_loads (Json.text "{'total': 5, 'movies': []}") = Some data
  ∧ _load_json_from_url demo_client "plain" = Ok data
  ∧ _load_json_from_url demo_client "gzip" = Ok data.
Proof.
  intros P data.
  assert (json_loads (Json.text "{'total': 5, 'movies': []}") = Some data)
    as Hb by (vm_compute; reflexivity).
  pose proof (load_json_compression_transparent (P := P) demo_client _ data
                (local_gzip_needs_magic _ _ _) (local_json_never_magic _ _ _) Hb)
    as (Hplain & Hgzip & _).
  split; [apply local_gzip_needs_magic|].
  split; [apply local_json_never_magic|].
  split; [exact Hb|].
  split.
  - apply Hplain. reflexivity.
  - apply (Hgzip "gzip" (Gzip.compress (Json.text "{'total': 5, 'movies': []}"))).
    + vm_compute. reflexivity.
    + reflexivity.
Defined.

(** ** Construction *)

Section Construction.
Context {P : Platform}.

Lemma truthy_not_None (x : scalar) : truthy x = true → is_not_None x = true.
Proof. destruct x; simpl; congruence. Qed.

Lemma init_unfold (k v : scalar) :
  __init__ k v =
    let key := if truthy k then k else API_KEY in
    if is_not_None key then
      let v' := if is_float v then SStr (str v) else v in
      let base := "http://api.rottentomatoes.com/api/public/v" +:+ str v' +:+ "/" in
      Ok (mkRT key v' base (base +:+ "lists") (base +:+ "movies"))
    else Raise AssertionError.
Proof.
  unfold __init__.
  destruct (truthy k); simpl;
    [destruct (is_not_None k) | destruct (is_not_None API_KEY)];
    reflexivity.
Qed.

Lemma str_normalized (v : scalar) :
  str (if is_float v then SStr (str v) else v) = str v.
Proof. destruct v; reflexivity. Qed.

(** C2, as the code has it. Construction raises [AssertionError] when no
    source holds a key; in general it raises exactly when the constructor
    argument is empty and the module global [API_KEY] is [None], and it
    succeeds in every other case, an empty string from the bundled module or
    from the environment included. *)
Theorem init_key_contract (k v : scalar) :
  (truthy k = false → rottentomatoes_api_key = None →
   environ_RT_KEY = None → __init__ k v = Raise AssertionError)
  ∧ (__init__ k v = Raise AssertionError ↔ truthy k = false ∧ API_KEY = SNone)
  ∧ ((∃ self, __init__ k v = Ok self) ↔ truthy k = true ∨ API_KEY ≠ SNone).
Proof.
  rewrite init_unfold. cbv zeta.
  split; [|split].
  - intros Hempty Hbundled Henv. rewrite Hempty.
    unfold API_KEY. rewrite Hbundled, Henv. reflexivity.
  - destruct (truthy k) eqn:Hkey.
    + rewrite (truthy_not_None _ Hkey). split; [discriminate|].
      intros [? _]. discriminate.
    + destruct API_KEY; simpl; split; try discriminate; auto;
        intros [_ ?]; discriminate.
  - destruct (truthy k) eqn:Hkey.
    + rewrite (truthy_not_None _ Hkey). split; eauto.
    + destruct API_KEY; simpl; split;
        try (intros [? ?]; discriminate);
        try (intros [?|?]; [discriminate | congruence]);
        try (intros _; right; discriminate);
        eauto.
Qed.

(** C7, as the code has it. Whenever construction succeeds, the three URLs
    are the fixed templates around the string form of the version; the
    stored version is that string when the version is given as a float (or
    is a string already), and a version of any other type is stored as it
    was given. *)
Theorem init_urls (k v : scalar) (self : RT) :
  __init__ k v = Ok self →
  BASE_URL self =
    "http://api.rottentomatoes.com/api/public/v" +:+ str v +:+ "/"
  ∧ lists_url self =
      "http://api.rottentomatoes.com/api/public/v" +:+ str v +:+ "/lists"
  ∧ movie_url self =
      "http://api.rottentomatoes.com/api/public/v" +:+ str v +:+ "/movies"
  ∧ str (version self) = str v
  ∧ (is_float v = true ∨ (∃ s, v = SStr s) → version self = SStr (str v))
  ∧ (is_float v = false → version self = v).
Proof.
  rewrite init_unfold. cbv zeta.
  destruct (is_not_None _); [|discriminate].
  intros [= <-]. cbn [BASE_URL lists_url movie_url version].
  rewrite !str_normalized.
  repeat split; try (rewrite !append_assoc; reflexivity).
  - intros [Hfloat | [s ->]]; [rewrite Hfloat|]; reflexivity.
  - intros ->. reflexivity.
Qed.

End Construction.

(** C2 as the specification words it fails: with [RT_KEY] set to the empty
    string and nothing else, [RT()] is constructed, with an empty key. *)
Lemma init_accepts_empty_key :
  ¬ (∀ (P : Platform) (k v : scalar) (self : RT),
       __init__ k v = Ok self → nonempty_key_available k).
Proof.
  intros Hclaim.
  destruct (Hclaim (local_platform None (Some "") (always ""))
              default_api_key default_version
              (mkRT (SStr "") (SStr "1.0")
                 "http://api.rottentomatoes.com/api/public/v1.0/"
                 "http://api.rottentomatoes.com/api/public/v1.0/lists"
                 "http://api.rottentomatoes.com/api/public/v1.0/movies")
              eq_refl)
    as [Harg | [(key & Hbundled & _) | (s & Henv & Hs)]].
  - discriminate Harg.
  - discriminate Hbundled.
  - injection Henv as <-. congruence.
Qed.

(** C7 as the specification words it fails: [RT('secret', 1)] is
    constructed and keeps the integer [1] as its version, not the string. *)
Lemma init_int_version_not_normalized :
  ¬ (∀ (P : Platform) (k v : scalar) (self : RT),
       __init__ k v = Ok self → version self = SStr (str v)).
Proof.
  intros Hclaim.
  pose proof (Hclaim (local_platform None None (always ""))
                (SStr "secret") (SInt 1)
                (mkRT (SStr "secret") (SInt 1)
                   "http://api.rottentomatoes.com/api/public/v1/"
                   "http://api.rottentomatoes.com/api/public/v1/lists"
                   "http://api.rottentomatoes.com/api/public/v1/movies")
                eq_refl) as Hversion.
  discriminate Hversion.
Qed.

(** C7 on the concrete platform: [RT('secret')] with the default version. *)
Lemma init_urls_witness :
  __init__ (P := local_platform None None (always "")) (SStr "secret")
    default_version = Ok demo_client
  ∧ BASE_URL demo_client = "http://api.rottentomatoes.com/api/public/v1.0/"
  ∧ lists_url demo_client =
      "http://api.rottentomatoes.com/api/public/v1.0/lists"
  ∧ movie_url demo_client =
      "http://api.rottentomatoes.com/api/public/v1.0/movies"
  ∧ version demo_client = SStr "1.0".
Proof.
  assert (__init__ (P := local_platform None None (always "")) (SStr "secret")
            default_version = Ok demo_client) as Hinit by reflexivity.
  destruct (init_urls (P := local_platform None None (always ""))
              (SStr "secret") default_version demo_client Hinit)
    as (Hbase & Hlists & Hmovie & _ & Hversion & _).
  split; [exact Hinit|].
  split; [exact Hbase|]. split; [exact Hlists|]. split; [exact Hmovie|].
  apply Hversion. left. reflexivity.
Defined.

(** ** Requests *)

Section Requests.
Context {P : Platform}.

Lemma bind_Ok (r : result pyval) : (data ← r; Ok data) = r.
Proof. destruct r; reflexivity. Qed.

Lemma urlencode_has (query : gmap string scalar) (k : string) (v : scalar) :
  query !! k = Some v → query_has (urlencode query) k v.
Proof.
  intros Hk. apply elem_of_map_to_list in Hk.
  apply list_elem_of_split in Hk as (before & after & Hitems).
  exists (encode_pair <$> before), (encode_pair <$> after).
  unfold urlencode. rewrite Hitems, fmap_app, fmap_cons. reflexivity.
Qed.

Lemma search_params_apikey (self : RT) (query : scalar)
    (kwargs : gmap string scalar) :
  search_params self query kwargs !! "apikey" = Some (api_key self).
Proof.
  unfold search_params, dict_update.
  apply lookup_union_Some_l, lookup_insert_eq.
Qed.

Lemma search_params_q (self : RT) (query : scalar)
    (kwargs : gmap string scalar) :
  search_params self query kwargs !! "q" = Some query.
Proof.
  unfold search_params, dict_update.
  apply lookup_union_Some_l.
  rewrite lookup_insert_ne by discriminate. apply lookup_singleton_eq.
Qed.

Lemma lists_params_apikey (self : RT) (kwargs : gmap string scalar) :
  lists_params self kwargs !! "apikey" = Some (api_key self).
Proof.
  unfold lists_params, dict_update.
  apply lookup_union_Some_l, lookup_singleton_eq.
Qed.

(** C3, as the code has it. When the decoded payload is an object, [search]
    returns exactly its value at [datatype] and raises [KeyError] exactly
    when the object has no such key; when the payload is an array or a
    scalar, [search] raises [TypeError]. *)
Theorem search_returns_datatype (self : RT) (query : scalar)
    (datatype : string) (kwargs : gmap string scalar) (payload : pyval) :
  _load_json_from_url self (search_url self query kwargs) = Ok payload →
  (∀ d, payload = PDict d →
     (∀ v, search self query datatype kwargs = Ok v ↔ d !! datatype = Some v)
     ∧ (search self query datatype kwargs = Raise KeyError
        ↔ d !! datatype = None))
  ∧ ((∀ d, payload ≠ PDict d) →
     search self query datatype kwargs = Raise TypeError).
Proof.
  intros Hload. unfold search. rewrite Hload. simpl. split.
  - intros d ->. simpl.
    destruct (d !! datatype) as [found|]; split; try intros v;
      split; congruence.
  - intros Hother. destruct payload; try reflexivity.
    exfalso. by eapply Hother.
Qed.

(** C4. [feeling_lucky] is element 0 of the sequence that
    [search(term, page_limit=1)] returns, and [IndexError] when that
    sequence is empty. *)
Theorem feeling_lucky_first (self : RT) (term : scalar) (found : list pyval) :
  search self term "movies" {["page_limit" := SInt 1]} = Ok (PList found) →
  feeling_lucky self term =
    match found with
    | first :: _ => Ok first
    | [] => Raise IndexError
    end.
Proof.
  intros Hsearch. unfold feeling_lucky, default_datatype.
  rewrite Hsearch. destruct found; reflexivity.
Qed.

(** C5. The URL [lists] requests is [lists_url], then [/directory/sub],
    [/directory] or nothing, then [.json?] and the query string; and [lists]
    returns the whole decoded payload. *)
Theorem lists_builds_path (self : RT) (directory sub : scalar)
    (kwargs : gmap string scalar) :
  lists_request_url self (SStr "dvds") (SStr "new_releases") kwargs =
    lists_url self +:+ "/dvds/new_releases.json?"
      +:+ urlencode (lists_params self kwargs)
  ∧ lists_request_url self (SStr "dvds") SNone kwargs =
      lists_url self +:+ "/dvds.json?" +:+ urlencode (lists_params self kwargs)
  ∧ lists_request_url self SNone SNone kwargs =
      lists_url self +:+ ".json?" +:+ urlencode (lists_params self kwargs)
  ∧ lists_request_url self directory sub kwargs =
      lists_url self
        +:+ (if truthy directory
             then "/" +:+ str directory
                    +:+ (if truthy sub then "/" +:+ str sub else "")
             else "")
        +:+ ".json?" +:+ urlencode (lists_params self kwargs)
  ∧ lists self directory sub kwargs =
      _load_json_from_url self (lists_request_url self directory sub kwargs).
Proof.
  repeat split; try reflexivity.
  - unfold lists_request_url, lists_path.
    destruct (truthy directory), (truthy sub); try reflexivity.
    rewrite append_nil_r. reflexivity.
  - unfold lists. apply bind_Ok.
Qed.

(** C6. An integer id and its decimal string give the same request URL,
    hence the same request; so does a [long], which [info] leaves to the
    ['%s'] of the path. *)
Theorem info_int_str_same_url (self : RT) (n : Z) (specific_info : scalar) :
  info_request_url self (SInt n) specific_info =
    info_request_url self (SStr (str (SInt n))) specific_info
  ∧ info_request_url self (SLong n) specific_info =
      info_request_url self (SStr (str (SLong n))) specific_info
  ∧ info self (SInt n) specific_info =
      info self (SStr (str (SInt n))) specific_info
  ∧ info_request_url self (SInt 13153) SNone =
      info_request_url self (SStr "13153") SNone.
Proof. repeat split. Qed.

(** C8. [movies] and [dvds] are the call of [lists] with the directory
    fixed and [sub] and the options passed on, followed by the lookup of
    [movies] in what it returns: when the options reuse no parameter name of
    [lists] that is the entry [movies] of the payload decoded from the list
    URL, and otherwise the [TypeError] of the call. *)
Theorem movies_dvds_delegate (self : RT) (sub : scalar)
    (kwargs : gmap string scalar) :
  movies self sub kwargs =
    (payload ← call_lists self (SStr "movies") sub kwargs;
     getitem payload (KStr "movies"))
  ∧ dvds self sub kwargs =
      (payload ← call_lists self (SStr "dvds") sub kwargs;
       getitem payload (KStr "movies"))
  ∧ movies self sub kwargs =
      (if lists_accepts kwargs then
         payload ← _load_json_from_url self
                      (lists_request_url self (SStr "movies") sub kwargs);
         getitem payload (KStr "movies")
       else Raise TypeError)
  ∧ dvds self sub kwargs =
      (if lists_accepts kwargs then
         payload ← _load_json_from_url self
                      (lists_request_url self (SStr "dvds") sub kwargs);
         getitem payload (KStr "movies")
       else Raise TypeError).
Proof.
  repeat split; unfold movies, dvds, call_lists, lists;
    destruct (lists_accepts kwargs); try rewrite bind_Ok; reflexivity.
Qed.

(** C9. [new] goes to the opening movies for kind [movies], to the newly
    released DVDs for kind [dvds], each time through the call of [lists]
    with the options passed on, and for every other kind returns [None]
    without raising. *)
Theorem new_by_kind (self : RT) (kind : scalar) (kwargs : gmap string scalar) :
  new self (SStr "movies") kwargs =
    (payload ← call_lists self (SStr "movies") (SStr "opening") kwargs;
     getitem payload (KStr "movies"))
  ∧ new self (SStr "dvds") kwargs =
      (payload ← call_lists self (SStr "dvds") (SStr "new_releases") kwargs;
       getitem payload (KStr "movies"))
  ∧ new self (SStr "movies") kwargs =
      (if lists_accepts kwargs then
         payload ← _load_json_from_url self
                      (lists_request_url self (SStr "movies") (SStr "opening")
                         kwargs);
         getitem payload (KStr "movies")
       else Raise TypeError)
  ∧ new self (SStr "dvds") kwargs =
      (if lists_accepts kwargs then
         payload ← _load_json_from_url self
                      (lists_request_url self (SStr "dvds")
                         (SStr "new_releases") kwargs);
         getitem payload (KStr "movies")
       else Raise TypeError)
  ∧ (kind ≠ SStr "movies" → kind ≠ SStr "dvds" →
     new self kind kwargs = Ok PNone).
Proof.
  split; [reflexivity|]. split; [reflexivity|].
  split; [|split].
  - unfold new, call_lists, lists.
    destruct (lists_accepts kwargs); rewrite ?bind_Ok; reflexivity.
  - unfold new, call_lists, lists.
    destruct (lists_accepts kwargs); rewrite ?bind_Ok; reflexivity.
  - intros Hmovies Hdvds. unfold new.
    destruct kind as [| | | | |s]; try reflexivity. simpl.
    destruct (String.eqb_spec s "movies") as [->|_]; [congruence|].
    destruct (String.eqb_spec s "dvds") as [->|_]; [congruence|].
    reflexivity.
Qed.

(** C10. The query string of every request, in [search], [lists] and [info],
    is the encoding of a dict whose [apikey] entry is the client's key (and,
    in [search], whose [q] entry is the query) whatever the caller's options
    hold, so the URL carries them as query parameters and carries no other
    value for them. *)
Theorem requests_carry_api_key (self : RT) (query : scalar)
    (kwargs : gmap string scalar) (directory sub : scalar)
    (id_num specific_info : scalar) :
  (search_url self query kwargs =
     movie_url self +:+ "?" +:+ urlencode (search_params self query kwargs)
   ∧ query_has (urlencode (search_params self query kwargs))
       "apikey" (api_key self)
   ∧ query_has (urlencode (search_params self query kwargs)) "q" query
   ∧ ∀ v, ("apikey", v) ∈ map_to_list (search_params self query kwargs) →
          v = api_key self)
  ∧ (∀ v, ("q", v) ∈ map_to_list (search_params self query kwargs) →
          v = query)
  ∧ (lists_request_url self directory sub kwargs =
       lists_url self +:+ lists_path directory sub +:+ ".json?"
         +:+ urlencode (lists_params self kwargs)
     ∧ query_has (urlencode (lists_params self kwargs)) "apikey" (api_key self)
     ∧ ∀ v, ("apikey", v) ∈ map_to_list (lists_params self kwargs) →
            v = api_key self)
  ∧ (∃ path, info_request_url self id_num specific_info =
               movie_url self +:+ path +:+ ".json?"
                 +:+ urlencode (info_params self))
  ∧ urlencode (info_params self) = "apikey=" +:+ quote_plus (str (api_key self)).
Proof.
  pose proof (search_params_apikey self query kwargs) as Hkey.
  pose proof (search_params_q self query kwargs) as Hq.
  pose proof (lists_params_apikey self kwargs) as Hlists.
  repeat split.
  - by apply urlencode_has.
  - by apply urlencode_has.
  - intros v Hv. apply elem_of_map_to_list in Hv. congruence.
  - intros v Hv. apply elem_of_map_to_list in Hv. congruence.
  - by apply urlencode_has.
  - intros v Hv. apply elem_of_map_to_list in Hv. congruence.
  - unfold info_request_url.
    exists (("/" +:+ str (if is_int id_num then SStr (str id_num) else id_num))
              +:+ (if truthy specific_info then "/" +:+ str specific_info
                   else "")).
    rewrite !append_assoc. reflexivity.
Qed.

End Requests.

(** ** The client on the concrete platform *)

(** C2 where no source holds a key: [RT()] raises. *)
Lemma init_key_contract_witness :
  truthy default_api_key = false
  ∧ __init__ (P := local_platform None None (always "")) default_api_key
      default_version = Raise AssertionError.
Proof.
  split; [reflexivity|].
  destruct (init_key_contract (P := local_platform None None (always ""))
              default_api_key default_version) as (Hnone & _ & _).
  apply Hnone; reflexivity.
Defined.

(** C3 as the specification words it fails: against an array payload the
    key is absent, and [search] raises [TypeError], not [KeyError]. *)
Lemma search_array_payload_not_KeyError :
  ¬ (∀ (P : Platform) (self : RT) (query : scalar) (datatype : string)
       (kwargs : gmap string scalar) (payload : pyval),
       _load_json_from_url self (search_url self query kwargs) = Ok payload →
       (search self query datatype kwargs = Raise KeyError
        ↔ has_key payload datatype = false)).
Proof.
  intros Hclaim.
  assert (_load_json_from_url (P := local_platform None None (always "[]"))
            demo_client (search_url demo_client (SStr "x") ∅) = Ok (PList []))
    as Hload by (vm_compute; reflexivity).
  destruct (Hclaim _ demo_client (SStr "x") "movies" ∅ (PList []) Hload)
    as [_ Habsent].
  specialize (Habsent eq_refl).
  unfold search in Habsent. rewrite Hload in Habsent. discriminate.
Qed.

(** C3 against an object payload: [search('x', 'total')] is [5]. *)
Lemma search_returns_datatype_witness :
  let P := local_platform None None (always search_body) in
  _load_json_from_url demo_client (search_url demo_client (SStr "x") ∅)
    = Ok search_payload
  ∧ search demo_client (SStr "x") "total" ∅ = Ok (PInt 5).
Proof.
  intros P.
  assert (_load_json_from_url demo_client (search_url demo_client (SStr "x") ∅)
            = Ok search_payload) as Hload by (vm_compute; reflexivity).
  split; [exact Hload|].
  destruct (search_returns_datatype demo_client (SStr "x") "total" ∅
              search_payload Hload) as [Hobject _].
  destruct (Hobject _ eq_refl) as [Hvalue _].
  apply Hvalue. vm_compute. reflexivity.
Defined.

(** C4 on the same response: the first of the two movies. *)
Lemma feeling_lucky_first_witness :
  let P := local_platform None None (always search_body) in
  search demo_client (SStr "memento") "movies" {["page_limit" := SInt 1]}
    = Ok (PList the_movies)
  ∧ feeling_lucky demo_client (SStr "memento")
    = Ok (PDict {["id" := PStr "9"]}).
Proof.
  intros P.
  assert (search demo_client (SStr "memento") "movies"
            {["page_limit" := SInt 1]} = Ok (PList the_movies))
    as Hsearch by (vm_compute; reflexivity).
  split; [exact Hsearch|].
  exact (feeling_lucky_first demo_client (SStr "memento") the_movies Hsearch).
Defined.

(** C9 for a kind that is neither: [new('games')] is [None]. *)
Lemma new_by_kind_witness :
  let P := local_platform None None (always search_body) in
  SStr "games" ≠ SStr "movies" ∧ SStr "games" ≠ SStr "dvds"
  ∧ new demo_client (SStr "games") ∅ = Ok PNone.
Proof.
  intros P.
  assert (SStr "games" ≠ SStr "movies") as Hmovies by discriminate.
  assert (SStr "games" ≠ SStr "dvds") as Hdvds by discriminate.
  split; [exact Hmovies|]. split; [exact Hdvds|].
  destruct (new_by_kind demo_client (SStr "games") ∅)
    as (_ & _ & _ & _ & Hother).
  exact (Hother Hmovies Hdvds).
Defined.

(** C10 for a caller who passes [apikey] and [q] among the options: the
    request carries the client's key and the query argument. *)
Lemma requests_carry_api_key_witness :
  let kwargs : gmap string scalar :=
    <["apikey" := SStr "other"]> {["q" := SStr "ignored"]} in
  query_has (urlencode (search_params demo_client (SStr "memento") kwargs))
    "apikey" (SStr "secret")
  ∧ query_has (urlencode (search_params demo_client (SStr "memento") kwargs))
      "q" (SStr "memento")
  ∧ ("apikey", SStr "other")
      ∉ map_to_list (search_params demo_client (SStr "memento") kwargs).
Proof.
  intros kwargs.
  destruct (requests_carry_api_key demo_client (SStr "memento") kwargs
              SNone SNone (SInt 1) SNone)
    as ((_ & Hkey & Hq & Honly) & _).
  split; [exact Hkey|]. split; [exact Hq|].
  intros Hother. apply Honly in Hother. discriminate Hother.
Defined.

(** The examples of the documentation, run. *)

Example search_movies_example :
  search (P := local_platform None None (always search_body)) demo_client
    (SStr "the lion king") default_datatype ∅ = Ok (PList the_movies).
Proof. vm_compute. reflexivity. Qed.

Example search_missing_key_example :
  search (P := local_platform None None (always search_body)) demo_client
    (SStr "x") "links" ∅ = Raise KeyError.
Proof. vm_compute. reflexivity. Qed.

Example search_gzipped_example :
  search (P := local_platform None None (always (Gzip.compress search_body)))
    demo_client (SStr "x") "total" ∅ = Ok (PInt 5).
Proof. vm_compute. reflexivity. Qed.

Example load_not_json_example :
  _load_json_from_url (P := local_platform None None (always "<html>"))
    demo_client "http://example.invalid/" = Raise ValueError.
Proof. vm_compute. reflexivity. Qed.

Example feeling_lucky_empty_example :
  feeling_lucky
    (P := local_platform None None (always (Json.text "{'movies': []}")))
    demo_client (SStr "no such film") = Raise IndexError.
Proof. vm_compute. reflexivity. Qed.

Example info_url_example :
  info_request_url demo_client (SInt 13153) (SStr "cast") =
    "http://api.rottentomatoes.com/api/public/v1.0/movies/13153/cast.json?apikey=secret".
Proof. vm_compute. reflexivity. Qed.

Example lists_url_example :
  lists_request_url demo_client (SStr "dvds") (SStr "new_releases") ∅ =
    "http://api.rottentomatoes.com/api/public/v1.0/lists/dvds/new_releases.json?apikey=secret".
Proof. vm_compute. reflexivity. Qed.

Example init_bundled_key_example :
  __init__ (P := local_platform (Some (SStr "secret")) (Some "unused") (always ""))
    default_api_key default_version = Ok demo_client.
Proof. reflexivity. Qed.

Example init_empty_environment_key_example :
  api_key <$> (match __init__ (P := local_platform None (Some "") (always ""))
                       default_api_key default_version with
               | Ok self => Some self
               | Raise _ => None
               end) = Some (SStr "").
Proof. reflexivity. Qed.

(** * Further properties of the client *)

(** ** Failures *)

Section Failures.
Context {P : Platform}.

(** X1. How [_load_json_from_url] fails: what the network call raises comes
    out unchanged; a body that gunzips to text that is not JSON raises
    [ValueError], the raw body is not tried again; and so does a body that is
    neither gzip-framed nor JSON. *)
Theorem load_failures (self : RT) (url : string) :
  (∀ e, urlopen_read url = Raise e → _load_json_from_url self url = Raise e)
  ∧ (∀ body plain, urlopen_read url = Ok body →
       zlib_decompress body = Some plain → json_loads plain = None →
       _load_json_from_url self url = Raise ValueError)
  ∧ (∀ body, urlopen_read url = Ok body →
       zlib_decompress body = None → json_loads body = None →
       _load_json_from_url self url = Raise ValueError).
Proof.
  unfold _load_json_from_url. split; [|split].
  - intros e ->. reflexivity.
  - intros body plain -> Hgz Hjson. simpl. rewrite Hgz, Hjson. reflexivity.
  - intros body -> Hgz Hjson. simpl. rewrite Hgz, Hjson. reflexivity.
Qed.

(** X2. No method catches anything: whatever fetch-and-decode raises at the
    URL a method requests is what the method raises; for [movies], [dvds]
    and [new] that is when the options reuse no parameter name of [lists],
    so that the request is made at all. *)
Theorem methods_propagate_failure (self : RT) (e : exn)
    (query : scalar) (datatype : string) (kwargs : gmap string scalar)
    (directory sub id_num specific_info : scalar) :
  (_load_json_from_url self (search_url self query kwargs) = Raise e →
   search self query datatype kwargs = Raise e)
  ∧ (_load_json_from_url self (lists_request_url self directory sub kwargs)
       = Raise e → lists self directory sub kwargs = Raise e)
  ∧ (_load_json_from_url self (info_request_url self id_num specific_info)
       = Raise e → info self id_num specific_info = Raise e)
  ∧ (lists_accepts kwargs = true →
     _load_json_from_url self
       (lists_request_url self (SStr "movies") sub kwargs) = Raise e →
     movies self sub kwargs = Raise e)
  ∧ (lists_accepts kwargs = true →
     _load_json_from_url self
       (lists_request_url self (SStr "dvds") sub kwargs) = Raise e →
     dvds self sub kwargs = Raise e)
  ∧ (lists_accepts kwargs = true →
     _load_json_from_url self
       (lists_request_url self (SStr "movies") (SStr "opening") kwargs)
       = Raise e → new self (SStr "movies") kwargs = Raise e)
  ∧ (lists_accepts kwargs = true →
     _load_json_from_url self
       (lists_request_url self (SStr "dvds") (SStr "new_releases") kwargs)
       = Raise e → new self (SStr "dvds") kwargs = Raise e)
  ∧ (_load_json_from_url self
       (search_url self query {["page_limit" := SInt 1]}) = Raise e →
     feeling_lucky self query = Raise e).
Proof.
  unfold search, info, movies, dvds, new, feeling_lucky, search, call_lists,
    lists.
  repeat split;
    [ intros Hload | intros Hload | intros Hload
    | intros -> Hload | intros -> Hload | intros -> Hload | intros -> Hload
    | intros Hload ];
    simpl; rewrite Hload; reflexivity.
Qed.

(** X3. What the convenience methods make of a payload without movies,
    when the options reuse no parameter name of [lists]: an object that
    lacks the entry [movies] (such as an error report of the service) makes
    [movies] and [dvds] raise [KeyError], and a payload that is no object
    makes them raise [TypeError]. *)
Theorem movies_dvds_without_entry (self : RT) (directory sub : scalar)
    (kwargs : gmap string scalar) (payload : pyval) :
  lists_accepts kwargs = true →
  _load_json_from_url self (lists_request_url self directory sub kwargs)
    = Ok payload →
  (directory = SStr "movies" →
     (∀ d, payload = PDict d → d !! "movies" = None →
        movies self sub kwargs = Raise KeyError)
     ∧ ((∀ d, payload ≠ PDict d) → movies self sub kwargs = Raise TypeError))
  ∧ (directory = SStr "dvds" →
       (∀ d, payload = PDict d → d !! "movies" = None →
          dvds self sub kwargs = Raise KeyError)
       ∧ ((∀ d, payload ≠ PDict d) → dvds self sub kwargs = Raise TypeError)).
Proof.
  intros Haccepts Hload.
  split; intros ->; unfold movies, dvds, call_lists, lists;
    rewrite Haccepts, Hload; simpl; split.
  - intros d -> Hnone. simpl. rewrite Hnone. reflexivity.
  - intros Hother. destruct payload; try reflexivity. exfalso. by eapply Hother.
  - intros d -> Hnone. simpl. rewrite Hnone. reflexivity.
  - intros Hother. destruct payload; try reflexivity. exfalso. by eapply Hother.
Qed.


(** X4. [feeling_lucky] on a response without results to index: an object
    that lacks [movies] raises [KeyError] (not [IndexError]), and an entry
    [movies] that is a number, a boolean or null raises [TypeError]. *)
Theorem feeling_lucky_without_list (self : RT) (term : scalar)
    (d : gmap string pyval) :
  _load_json_from_url self (search_url self term {["page_limit" := SInt 1]})
    = Ok (PDict d) →
  (d !! "movies" = None → feeling_lucky self term = Raise KeyError)
  ∧ (∀ found, d !! "movies" = Some found →
       (found = PNone ∨ (∃ b, found = PBool b) ∨ (∃ n, found = PInt n)
        ∨ (∃ r, found = PFloat r)) →
       feeling_lucky self term = Raise TypeError).
Proof.
  intros Hload. unfold feeling_lucky, search, default_datatype.
  rewrite Hload. simpl. split.
  - intros ->. reflexivity.
  - intros found -> [-> | [[b ->] | [[n ->] | [r ->]]]]; reflexivity.
Qed.

End Failures.

(** X1 on the concrete platform: a gzip member holding a web page, and a
    server that cannot be reached. *)
Lemma load_failures_witness :
  _load_json_from_url
    (P := local_platform None None (always (Gzip.compress "<html>")))
    demo_client "http://example.invalid/" = Raise ValueError
  ∧ _load_json_from_url (P := local_platform None None unreachable)
      demo_client "http://example.invalid/" = Raise URLError.
Proof.
  split.
  - destruct (load_failures
                (P := local_platform None None (always (Gzip.compress "<html>")))
                demo_client "http://example.invalid/") as (_ & Hgz & _).
    apply (Hgz (Gzip.compress "<html>") "<html>");
      [reflexivity | vm_compute; reflexivity | vm_compute; reflexivity].
  - destruct (load_failures (P := local_platform None None unreachable)
                demo_client "http://example.invalid/") as (Hnet & _ & _).
    apply Hnet. reflexivity.
Defined.

(** X2 when the server cannot be reached: [search] raises what the network
    call raised. *)
Lemma methods_propagate_failure_witness :
  search (P := local_platform None None unreachable) demo_client
    (SStr "memento") "movies" ∅ = Raise URLError.
Proof.
  destruct (methods_propagate_failure (P := local_platform None None unreachable)
              demo_client URLError (SStr "memento") "movies" ∅
              SNone SNone (SInt 1) SNone) as (Hsearch & _).
  apply Hsearch. reflexivity.
Defined.

(** X3 on an error report of the service. *)
Lemma movies_dvds_without_entry_witness :
  let P := local_platform None None (always error_body) in
  _load_json_from_url demo_client
    (lists_request_url demo_client (SStr "movies") (SStr "in_theaters") ∅)
    = Ok (PDict {["error" := PStr "Account Inactive"]})
  ∧ movies demo_client (SStr "in_theaters") ∅ = Raise KeyError.
Proof.
  intros P.
  assert (_load_json_from_url demo_client
            (lists_request_url demo_client (SStr "movies") (SStr "in_theaters") ∅)
            = Ok (PDict {["error" := PStr "Account Inactive"]})) as Hload
    by (vm_compute; reflexivity).
  split; [exact Hload|].
  assert (lists_accepts ∅ = true) as Haccepts by (vm_compute; reflexivity).
  destruct (movies_dvds_without_entry demo_client (SStr "movies")
              (SStr "in_theaters") ∅ _ Haccepts Hload) as [Hmovies _].
  destruct (Hmovies eq_refl) as [Hobject _].
  apply (Hobject _ eq_refl). vm_compute. reflexivity.
Defined.

(** X4 on the same error report. *)
Lemma feeling_lucky_without_list_witness :
  let P := local_platform None None (always error_body) in
  feeling_lucky demo_client (SStr "memento") = Raise KeyError.
Proof.
  intros P.
  assert (_load_json_from_url demo_client
            (search_url demo_client (SStr "memento") {["page_limit" := SInt 1]})
            = Ok (PDict {["error" := PStr "Account Inactive"]})) as Hload
    by (vm_compute; reflexivity).
  destruct (feeling_lucky_without_list demo_client (SStr "memento") _ Hload)
    as [Hnone _].
  apply Hnone. vm_compute. reflexivity.
Defined.


(** ** The key and the version the constructor keeps *)

Section MoreConstruction.
Context {P : Platform}.

(** X5. Which key a constructed client holds: the constructor argument when
    it is not empty; otherwise the bundled [API_KEY] when that module can be
    imported; otherwise the environment variable [RT_KEY]. *)
Theorem init_key_priority (k v : scalar) (self : RT) :
  __init__ k v = Ok self →
  (truthy k = true → api_key self = k)
  ∧ (truthy k = false → ∀ bundled,
       rottentomatoes_api_key = Some bundled → api_key self = bundled)
  ∧ (truthy k = false → rottentomatoes_api_key = None → ∀ s,
       environ_RT_KEY = Some s → api_key self = SStr s).
Proof.
  rewrite init_unfold. cbv zeta.
  destruct (is_not_None _); [|discriminate].
  intros [= <-]. cbn [api_key]. unfold API_KEY. split; [|split].
  - intros ->. reflexivity.
  - intros -> bundled ->. reflexivity.
  - intros -> -> s ->. reflexivity.
Qed.

(** X6. A bundled module whose [API_KEY] is [None] hides the environment:
    without a constructor argument construction raises [AssertionError]
    whatever [RT_KEY] holds. *)
Theorem init_bundled_None_hides_environment (k v : scalar) :
  truthy k = false →
  rottentomatoes_api_key = Some SNone →
  __init__ k v = Raise AssertionError.
Proof.
  intros Hk Hbundled. rewrite init_unfold. cbv zeta.
  rewrite Hk. unfold API_KEY. rewrite Hbundled. reflexivity.
Qed.

(** X7. Only a float version is replaced by its string: any other version
    (an [int], say) is stored as it was given, while the URLs hold its
    string form. *)
Theorem init_keeps_other_versions (k v : scalar) (self : RT) :
  __init__ k v = Ok self →
  is_float v = false →
  version self = v
  ∧ BASE_URL self =
      "http://api.rottentomatoes.com/api/public/v" +:+ str v +:+ "/".
Proof.
  rewrite init_unfold. cbv zeta.
  destruct (is_not_None _); [|discriminate].
  intros [= <-] ->. split; reflexivity.
Qed.

(** X8. Every URL a constructed client requests lies under its [BASE_URL]:
    [movies?...] for [search], [lists...] for [lists] and [movies/id...] for
    [info]. *)
Theorem request_urls_under_base (k v : scalar) (self : RT)
    (query : scalar) (kwargs : gmap string scalar)
    (directory sub id_num specific_info : scalar) :
  __init__ k v = Ok self →
  search_url self query kwargs =
    BASE_URL self +:+ "movies?" +:+ urlencode (search_params self query kwargs)
  ∧ lists_request_url self directory sub kwargs =
      BASE_URL self +:+ "lists" +:+ lists_path directory sub +:+ ".json?"
        +:+ urlencode (lists_params self kwargs)
  ∧ info_request_url self id_num specific_info =
      BASE_URL self +:+ "movies/" +:+ str id_num
        +:+ (if truthy specific_info then "/" +:+ str specific_info else "")
        +:+ ".json?" +:+ urlencode (info_params self).
Proof.
  rewrite init_unfold. cbv zeta.
  destruct (is_not_None _); [|discriminate].
  intros [= <-].
  unfold search_url, lists_request_url, info_request_url.
  cbn [BASE_URL lists_url movie_url].
  repeat split; rewrite !append_assoc; try reflexivity.
  destruct id_num as [| [] | | | |]; reflexivity.
Qed.

End MoreConstruction.

(** X5 with all three sources filled, and with the argument left empty. *)
Lemma init_key_priority_witness :
  let P := local_platform (Some (SStr "bundled")) (Some "environment")
             (always "") in
  (∃ self, __init__ (SStr "argument") default_version = Ok self
           ∧ api_key self = SStr "argument")
  ∧ (∃ self, __init__ default_api_key default_version = Ok self
             ∧ api_key self = SStr "bundled").
Proof.
  intros P. split.
  - eexists. split; [reflexivity|].
    refine (proj1 (init_key_priority (SStr "argument") default_version _
                     eq_refl) eq_refl).
  - eexists. split; [reflexivity|].
    refine (proj1 (proj2 (init_key_priority default_api_key default_version _
                            eq_refl)) eq_refl _ eq_refl).
Defined.

(** X6 with [RT_KEY] set. *)
Lemma init_bundled_None_hides_environment_witness :
  __init__ (P := local_platform (Some SNone) (Some "environment") (always ""))
    default_api_key default_version = Raise AssertionError.
Proof.
  apply (init_bundled_None_hides_environment
           (P := local_platform (Some SNone) (Some "environment") (always "")));
    reflexivity.
Defined.

(** X7 for [RT('secret', 1)]. *)
Lemma init_keeps_other_versions_witness :
  let P := local_platform None None (always "") in
  ∃ self, __init__ (SStr "secret") (SInt 1) = Ok self
          ∧ version self = SInt 1
          ∧ BASE_URL self = "http://api.rottentomatoes.com/api/public/v1/".
Proof.
  intros P. eexists. split; [reflexivity|].
  refine (init_keeps_other_versions (SStr "secret") (SInt 1) _ eq_refl eq_refl).
Defined.

(** X8 for [RT('secret')]. *)
Lemma request_urls_under_base_witness :
  let P := local_platform None None (always "") in
  __init__ (SStr "secret") default_version = Ok demo_client
  ∧ info_request_url demo_client (SInt 13153) SNone =
      BASE_URL demo_client +:+ "movies/13153.json?apikey=secret".
Proof.
  intros P. split; [reflexivity|].
  destruct (request_urls_under_base (SStr "secret") default_version demo_client
              SNone ∅ SNone SNone (SInt 13153) SNone eq_refl)
    as (_ & _ & Hinfo).
  exact Hinfo.
Defined.

(** ** Options and query strings *)

Lemma count_char_app (c : ascii) (a b : string) :
  count_char c (a +:+ b) = (count_char c a + count_char c b)%nat.
Proof.
  induction a as [|x a IH]; [reflexivity|].
  change (((if Ascii.eqb x c then 1 else 0) + count_char c (a +:+ b))%nat
          = ((if Ascii.eqb x c then 1 else 0) + count_char c a
             + count_char c b)%nat).
  rewrite IH. apply Nat.add_assoc.
Qed.

Lemma quote_char_separators (x : ascii) :
  count_char "&" (quote_char x) = 0%nat ∧ count_char "=" (quote_char x) = 0%nat.
Proof. destruct x as [[] [] [] [] [] [] [] []]; split; reflexivity. Qed.

Lemma quote_plus_separators (s : string) :
  count_char "&" (quote_plus s) = 0%nat ∧ count_char "=" (quote_plus s) = 0%nat.
Proof.
  induction s as [|x s [IHamp IHeq]]; [split; reflexivity|].
  cbn [quote_plus]. rewrite !count_char_app, IHamp, IHeq.
  destruct (quote_char_separators x) as [-> ->]. split; reflexivity.
Qed.

Lemma encode_pair_separators (kv : string * scalar) :
  count_char "&" (encode_pair kv) = 0%nat
  ∧ count_char "=" (encode_pair kv) = 1%nat.
Proof.
  unfold encode_pair. rewrite !count_char_app.
  destruct (quote_plus_separators kv.1) as [-> ->].
  destruct (quote_plus_separators (str kv.2)) as [-> ->].
  split; reflexivity.
Qed.

Lemma concat_separators (items : list (string * scalar)) :
  count_char "&" (String.concat "&" (encode_pair <$> items))
    = Nat.pred (length items)
  ∧ count_char "=" (String.concat "&" (encode_pair <$> items)) = length items.
Proof.
  induction items as [|kv items [IHamp IHeq]]; [split; reflexivity|].
  destruct (encode_pair_separators kv) as [Hamp Heq].
  destruct items as [|kv' items].
  - cbn. rewrite Hamp, Heq. split; reflexivity.
  - change (String.concat "&" (encode_pair <$> kv :: kv' :: items))
      with (encode_pair kv +:+ "&"
              +:+ String.concat "&" (encode_pair <$> kv' :: items)).
    rewrite !count_char_app, IHamp, IHeq, Hamp, Heq. split; reflexivity.
Qed.

Section Options.
Context {P : Platform}.

(** X9. Caller options reach the request untouched: apart from [apikey] (and
    [q] in [search]) the encoded dict has exactly the caller's entries, and
    each of them is a component of the query string. *)
Theorem options_pass_through (self : RT) (query : scalar)
    (kwargs : gmap string scalar) (k : string) :
  k ≠ "apikey" →
  lists_params self kwargs !! k = kwargs !! k
  ∧ (∀ v, kwargs !! k = Some v →
          query_has (urlencode (lists_params self kwargs)) k v)
  ∧ (k ≠ "q" →
     search_params self query kwargs !! k = kwargs !! k
     ∧ ∀ v, kwargs !! k = Some v →
            query_has (urlencode (search_params self query kwargs)) k v).
Proof.
  intros Hkey.
  assert (lists_params self kwargs !! k = kwargs !! k) as Hlists.
  { unfold lists_params, dict_update.
    apply lookup_union_r, lookup_singleton_ne. congruence. }
  split; [exact Hlists|]. split.
  - intros v Hv. apply urlencode_has. congruence.
  - intros Hq.
    assert (search_params self query kwargs !! k = kwargs !! k) as Hsearch.
    { unfold search_params, dict_update. apply lookup_union_r.
      rewrite lookup_insert_ne by congruence.
      apply lookup_singleton_ne. congruence. }
    split; [exact Hsearch|].
    intros v Hv. apply urlencode_has. congruence.
Qed.

(** X10. Without a directory [lists] ignores [sub]: it requests what
    [lists()] requests. *)
Theorem lists_ignores_sub_without_directory (self : RT)
    (directory sub : scalar) (kwargs : gmap string scalar) :
  truthy directory = false →
  lists_request_url self directory sub kwargs =
    lists_request_url self SNone SNone kwargs
  ∧ lists self directory sub kwargs = lists self SNone SNone kwargs.
Proof.
  intros Hdir.
  assert (lists_request_url self directory sub kwargs =
            lists_request_url self SNone SNone kwargs) as Hurl.
  { unfold lists_request_url, lists_path. rewrite Hdir. reflexivity. }
  split; [exact Hurl|]. unfold lists. rewrite Hurl. reflexivity.
Qed.

(** X12. The URL of [info]: [movie_url], the id, the specific info when one
    is given (a [None] or empty one adds nothing), [.json] and the key as
    the only query parameter; the payload comes back whole. *)
Theorem info_url_shape (self : RT) (id_num specific_info : scalar) :
  info_request_url self id_num specific_info =
    movie_url self +:+ "/" +:+ str id_num
      +:+ (if truthy specific_info then "/" +:+ str specific_info else "")
      +:+ ".json?apikey=" +:+ quote_plus (str (api_key self))
  ∧ (truthy specific_info = false →
     info_request_url self id_num specific_info =
       info_request_url self id_num SNone)
  ∧ info self id_num specific_info =
      _load_json_from_url self (info_request_url self id_num specific_info).
Proof.
  split; [|split].
  - unfold info_request_url.
    replace (urlencode (info_params self))
      with ("apikey=" +:+ quote_plus (str (api_key self)))
      by reflexivity.
    rewrite !append_assoc.
    destruct id_num as [| [] | | | |]; reflexivity.
  - intros Hinfo. unfold info_request_url. rewrite Hinfo. reflexivity.
  - unfold info. apply bind_Ok.
Qed.

(** X13. What [feeling_lucky] requests: the entry [movies], then element
    0, of the payload decoded from the search URL whose parameters are three
    and no more, the key, the search term as [q], and [page_limit=1]. *)
Theorem feeling_lucky_params (self : RT) (term : scalar) :
  feeling_lucky self term =
    (payload ← _load_json_from_url self
                 (movie_url self +:+ "?"
                    +:+ urlencode (search_params self term
                                     {["page_limit" := SInt 1]}));
     found ← getitem payload (KStr "movies");
     getitem found (KInt 0))
  ∧ ∀ k v,
      search_params self term {["page_limit" := SInt 1]} !! k = Some v
      ↔ (k = "apikey" ∧ v = api_key self)
        ∨ (k = "q" ∧ v = term)
        ∨ (k = "page_limit" ∧ v = SInt 1).
Proof.
  split.
  - unfold feeling_lucky, search, search_url, default_datatype.
    destruct (_load_json_from_url self _); reflexivity.
  - intros k v. unfold search_params, dict_update.
    rewrite lookup_union_Some_raw, lookup_insert_Some, !lookup_singleton_Some.
    rewrite lookup_insert_None, lookup_singleton_None.
    split.
    + intros [[[<- <-] | [_ [<- <-]]] | [_ [<- <-]]]; auto.
    + intros [[-> ->] | [[-> ->] | [-> ->]]]; [auto | auto |].
      right. repeat split; discriminate.
Qed.

(** X14. Keys and values cannot add parameters: the query string has one
    [=] for each entry of the encoded dict and one [&] between neighbours,
    whatever characters the entries hold. *)
Theorem urlencode_separators (query : gmap string scalar) :
  count_char "&" (urlencode query) = Nat.pred (size query)
  ∧ count_char "=" (urlencode query) = size query.
Proof.
  unfold urlencode.
  destruct (concat_separators (map_to_list query)) as [Hamp Heq].
  rewrite Hamp, Heq, length_map_to_list. split; reflexivity.
Qed.

End Options.

(** X9 for [search('memento', page=2)]. *)
Lemma options_pass_through_witness :
  "page" ≠ "apikey" ∧ "page" ≠ "q"
  ∧ search_params demo_client (SStr "memento") {["page" := SInt 2]} !! "page"
    = Some (SInt 2)
  ∧ query_has
      (urlencode (search_params demo_client (SStr "memento")
                    {["page" := SInt 2]}))
      "page" (SInt 2).
Proof.
  assert ("page" ≠ "apikey") as Hkey by discriminate.
  assert ("page" ≠ "q") as Hq by discriminate.
  destruct (options_pass_through demo_client (SStr "memento")
              {["page" := SInt 2]} "page" Hkey) as (_ & _ & Hsearch).
  destruct (Hsearch Hq) as [Hlookup Hquery].
  split; [exact Hkey|]. split; [exact Hq|]. split.
  - rewrite Hlookup. reflexivity.
  - apply Hquery. reflexivity.
Defined.

(** X10 for [lists(sub='new_releases')]. *)
Lemma lists_ignores_sub_without_directory_witness :
  lists_request_url demo_client SNone (SStr "new_releases") ∅ =
    lists_request_url demo_client SNone SNone ∅
  ∧ lists_request_url demo_client SNone (SStr "new_releases") ∅ =
      "http://api.rottentomatoes.com/api/public/v1.0/lists.json?apikey=secret".
Proof.
  destruct (lists_ignores_sub_without_directory
              (P := local_platform None None (always ""))
              demo_client SNone (SStr "new_releases") ∅ eq_refl) as [Hurl _].
  split; [exact Hurl|]. rewrite Hurl. vm_compute. reflexivity.
Defined.

(** X12 for [info('13153', '')]. *)
Lemma info_url_shape_witness :
  info_request_url demo_client (SStr "13153") (SStr "") =
    info_request_url demo_client (SStr "13153") SNone
  ∧ info_request_url demo_client (SStr "13153") (SStr "") =
      "http://api.rottentomatoes.com/api/public/v1.0/movies/13153.json?apikey=secret".
Proof.
  destruct (info_url_shape (P := local_platform None None (always ""))
              demo_client (SStr "13153") (SStr "")) as (Hshape & Hempty & _).
  split; [exact (Hempty eq_refl)|]. rewrite Hshape. vm_compute. reflexivity.
Defined.

(** A query with separators in it stays one parameter. *)
Example query_with_separators_example :
  urlencode {["q" := SStr "a&b=c d"]} = "q=a%26b%3Dc+d".
Proof. vm_compute. reflexivity. Qed.

(** A decoded text is indexed by character, not by byte: the first
    character of the two-byte letter followed by [t], and the last. *)
Example getitem_text_example :
  getitem (PStr (String "195" (String "169" "t"))) (KInt 0)
    = Ok (PStr (String "195" (String "169" "")))
  ∧ getitem (PStr (String "195" (String "169" "t"))) (KInt (-1))
    = Ok (PStr "t")
  ∧ getitem (PStr "") (KInt 0) = Raise IndexError.
Proof. repeat split. Qed.

(** An option that collides stops the call even where the server answers. *)
Example movies_directory_option_example :
  movies (P := local_platform None None (always search_body)) demo_client
    (SStr "in_theaters") {["directory" := SStr "dvds"]} = Raise TypeError
  ∧ movies (P := local_platform None None (always search_body)) demo_client
      (SStr "in_theaters") {["page_limit" := SInt 5]} = Ok (PList the_movies).
Proof. split; vm_compute; reflexivity. Qed.
